(** * simple_dev: the Fibonacci generator and the risk-report heuristics

    A shallow embedding of [fibonacci.py] (the function [fibonacci], with the
    checks of [test_fibonacci.py]) and of the heuristic scoring pipeline that
    the specification describes. Python integers are unbounded, so they are
    [Z]; a Python list is a [list]; a call that may raise returns a
    [result]. *)

From stdpp Require Import base numbers list strings gmap.
From Stdlib Require Import ZArith QArith Lia Ascii.

Open Scope Z_scope.

(** ** The fragment of the Python runtime that [fibonacci] uses *)

Module Py.

(** The exceptions that the modelled code can raise: the explicit
    [ValueError] and the [IndexError] of list indexing. *)
Inductive exn : Type :=
| ValueError (msg : string)
| IndexError (msg : string).

(** The outcome of a call: a returned value or a raised exception. *)
Inductive result (A : Type) : Type :=
| Return (a : A)
| Raise (e : exn).
Arguments Return {A} a.
Arguments Raise {A} e.

#[export] Instance result_ret : MRet result := fun A a => Return a.

(** Sequencing: an exception raised by the first statement skips the rest. *)
#[export] Instance result_bind : MBind result := fun A B k r =>
  match r with
  | Return a => k a
  | Raise e => Raise e
  end.

(** [sys.maxsize] on a 64-bit build: the largest index-sized integer. *)
Definition maxsize : Z := 2 ^ 63 - 1.

(** Whether an integer fits an index-sized integer, [-maxsize-1 .. maxsize]. *)
Definition fits_index (i : Z) : bool := (- maxsize - 1 <=? i) && (i <=? maxsize).

(** [l[i]] for a list and an integer index: a negative index counts from
    the end, and an index outside [-len, len) raises [IndexError]. The
    runtime has two messages for it: an index that does not fit an
    index-sized integer is refused as such, any other index outside the
    list as out of range. A list holds at most [maxsize] elements, so an
    index that does not fit is outside the list, and the order of the two
    tests does not show. *)
Definition getitem {A : Type} (l : list A) (i : Z) : result A :=
  let len := Z.of_nat (length l) in
  let j := if i <? 0 then i + len else i in
  if (j <? 0) || (len <=? j)
  then if fits_index i
       then Raise (IndexError "list index out of range")
       else Raise (IndexError "cannot fit 'int' into an index-sized integer")
  else match l !! Z.to_nat j with
       | Some x => Return x
       | None => Raise (IndexError "list index out of range")
       end.

(** [range(start, stop)]: the integers [start <= i < stop] in increasing
    order, empty when [stop <= start]. *)
Definition range (start stop : Z) : list Z := seqZ start (stop - start).

(** [for i in xs: body], where the body reads and rebinds the loop state
    [s] and may raise. *)
Fixpoint for_in {S : Type} (xs : list Z) (body : Z -> S -> result S) (s : S)
  : result S :=
  match xs with
  | [] => Return s
  | i :: xs' => s' ← body i s; for_in xs' body s'
  end.

(** [l.append(x)] on the list held by the loop state. *)
Definition append {A : Type} (l : list A) (x : A) : list A := l ++ [x].

End Py.

Import Py.

(** ** fibonacci.py *)

(** The body of the [for] loop of [fibonacci]:
    [fib_sequence.append(fib_sequence[i-1] + fib_sequence[i-2])]. The left
    operand of [+] is read first. *)
Definition fibonacci_body (i : Z) (fib_sequence : list Z) : result (list Z) :=
  a ← getitem fib_sequence (i - 1);
  b ← getitem fib_sequence (i - 2);
  Return (append fib_sequence (a + b)).

(** [fibonacci(n)], branch by branch as in the source. *)
Definition fibonacci (n : Z) : result (list Z) :=
  if n <? 0 then Raise (ValueError "n must be non-negative")
  else if n =? 0 then Return []
  else if n =? 1 then Return [0]
  else if n =? 2 then Return [0; 1]
  else
    let fib_sequence := [0; 1] in
    fib_sequence ← for_in (range 2 n) fibonacci_body fib_sequence;
    Return fib_sequence.

(** The Fibonacci numbers themselves, [F(0) = 0], [F(1) = 1],
    [F(k+2) = F(k+1) + F(k)]: the sequence that the docstring of
    [fibonacci] refers to. *)
Fixpoint fib (k : nat) : Z :=
  match k with
  | O => 0
  | S k' =>
      match k' with
      | O => 1
      | S k'' => fib k' + fib k''
      end
  end.

(** The first [k] Fibonacci numbers. *)
Definition first_fib (k : nat) : list Z := fib <$> seq 0 k.

(** ** The risk report: data model (specification, section 3) *)

(** Modelled from the spec: the coarse risk label of section 3 and the
    glossary ("low/medium/high"); the analyzer scripts that declare it are
    not among the source files. *)
Inductive RiskLevel : Type := low | medium | high.

#[export] Instance RiskLevel_eq_dec : EqDecision RiskLevel.
Proof. solve_decision. Defined.

(** The order [low < medium < high] as a rank. *)
Definition risk_rank (r : RiskLevel) : Z :=
  match r with low => 0 | medium => 1 | high => 2 end.

(** Modelled from the spec: the change type of a [FileChange] (section 3:
    "added/modified/deleted/renamed"). *)
Inductive ChangeType : Type := added | modified | deleted | renamed.

(** Modelled from the spec: the [FileChange] value object of section 3
    ("path, change type, added/deleted line counts, derived complexity
    score, derived risk level"); its declaration is not in the sources. *)
Record FileChange : Type := mkFileChange {
  fc_path : string;
  fc_change_type : ChangeType;
  fc_added : Z;
  fc_deleted : Z;
  fc_complexity_score : Z;
  fc_risk_level : RiskLevel
}.

(** Modelled from the spec: the [ModuleImpact] of section 3, "aggregation of
    FileChange records sharing a directory; holds an averaged risk score and
    a coarse regression-risk label". *)
Record ModuleImpact : Type := mkModuleImpact {
  mi_files : list FileChange;
  mi_risk_score : Q;
  mi_regression_risk : RiskLevel
}.

(** ** The heuristic scorer (specification, section 4.1) *)

Module Scorer.

(** Modelled from the spec: the static tables and constants of the heuristic
    scorer, whose source is not among the source files. Section 2 gives
    "static weight tables keyed by file extension and path substring";
    section 4.1 an integer score, a historical-risk lookup whose missing
    entries default to a constant, a size threshold and the substrings that
    force "high"; section 6 the historical risk scores as a key-value map
    read from a JSON file. The specification names neither the values nor
    how a path yields its extension nor how the looked-up risk and the size
    test are combined: these are fields here. The score is an integer
    product, so the weights are integers. *)
Record Tables : Type := mkTables {
  file_extension : string -> string;
  file_type_weights : gmap string Z;
  default_file_type_weight : Z;
  path_pattern_weights : list (string * Z);
  default_pattern_weight : Z;
  historical_risk : gmap string Q;
  default_historical_risk : Q;
  size_threshold : Z;
  high_risk_patterns : list string;
  combine_risk : Q -> bool -> RiskLevel
}.

(** [pat in s] on strings: [pat] occurs in [s] as a substring. *)
Fixpoint is_substring (pat s : string) : bool :=
  String.prefix pat s ||
  match s with
  | EmptyString => false
  | String _ s' => is_substring pat s'
  end.

(** Modelled from the spec: the file-type weight, read from the table keyed
    by file extension. *)
Definition file_type_weight (T : Tables) (path : string) : Z :=
  default (default_file_type_weight T)
          (file_type_weights T !! file_extension T path).

(** Modelled from the spec: the weights of the path patterns that occur in
    the path, in table order. *)
Definition matching_weights (T : Tables) (path : string) : list Z :=
  snd <$> filter (fun pw => is_substring (fst pw) path) (path_pattern_weights T).

(** Modelled from the spec: "max matching path-pattern weight"; the neutral
    constant when no pattern matches. *)
Definition pattern_weight (T : Tables) (path : string) : Z :=
  match matching_weights T path with
  | [] => default_pattern_weight T
  | w :: ws => foldl Z.max w ws
  end.

(** Modelled from the spec: "integer complexity score = (added+deleted lines)
    x file-type weight x max matching path-pattern weight". *)
Definition complexity_score (T : Tables) (path : string) (n_added n_deleted : Z) : Z :=
  (n_added + n_deleted) * file_type_weight T path * pattern_weight T path.

(** Modelled from the spec: the historical-risk lookup, "missing lookup
    defaulting to a constant". *)
Definition lookup_historical_risk (T : Tables) (path : string) : Q :=
  default (default_historical_risk T) (historical_risk T !! path).

(** Modelled from the spec: the pattern-based override, "certain substrings
    force high". *)
Definition forced_high (T : Tables) (path : string) : bool :=
  existsb (fun pat => is_substring pat path) (high_risk_patterns T).

(** Modelled from the spec: the size test of the risk label, a change of
    more lines than the threshold. *)
Definition over_size_threshold (T : Tables) (n_added n_deleted : Z) : bool :=
  size_threshold T <? n_added + n_deleted.

(** Modelled from the spec: the "risk label derived from combining a
    historical-risk lookup, a size threshold, and a pattern-based
    override". *)
Definition risk_label (T : Tables) (path : string) (n_added n_deleted : Z) : RiskLevel :=
  if forced_high T path then high
  else combine_risk T (lookup_historical_risk T path)
                      (over_size_threshold T n_added n_deleted).

(** Modelled from the spec: the contract of section 4.1, "given a file path
    and line-change counts, returns an integer complexity score ... and a
    risk label". *)
Definition heuristic_scorer (T : Tables) (path : string) (n_added n_deleted : Z)
  : Z * RiskLevel :=
  (complexity_score T path n_added n_deleted, risk_label T path n_added n_deleted).

(** Two tables with the same content: the same extension rule, the same
    mappings and constants, and the same path patterns and forcing
    substrings, in whatever order and however often a pattern is listed. *)
Definition same_tables (T1 T2 : Tables) : Prop :=
  (forall path, file_extension T1 path = file_extension T2 path) /\
  file_type_weights T1 = file_type_weights T2 /\
  default_file_type_weight T1 = default_file_type_weight T2 /\
  (forall pw, pw ∈ path_pattern_weights T1 <-> pw ∈ path_pattern_weights T2) /\
  default_pattern_weight T1 = default_pattern_weight T2 /\
  historical_risk T1 = historical_risk T2 /\
  default_historical_risk T1 = default_historical_risk T2 /\
  size_threshold T1 = size_threshold T2 /\
  (forall pat, pat ∈ high_risk_patterns T1 <-> pat ∈ high_risk_patterns T2) /\
  (forall h big, combine_risk T1 h big = combine_risk T2 h big).

End Scorer.

(** ** Operations of the pipeline and their failures (sections 4 and 7) *)

Module Pipeline.

(** Modelled from the spec: the failures of section 7, "missing files,
    subprocess failures, malformed JSON"; the scripts that raise them are
    not among the source files. *)
Inductive Failure : Type :=
| MissingFile (name : string)
| SubprocessFailure (command : string)
| MalformedJSON (text : string).

(** What an operation leaves behind: its value, or the failure it raised. *)
Inductive Outcome (A : Type) : Type :=
| Done (a : A)
| Failed (f : Failure).
Arguments Done {A} a.
Arguments Failed {A} f.

(** Modelled from the spec: an operation of the pipeline. Section 5 leaves
    it no state but what the process holds; the one effect the
    specification names is printing to standard output, so an operation
    maps the lines printed so far to its outcome and the lines printed
    after it. *)
Definition Op (A : Type) : Type := list string -> Outcome A * list string.

#[global] Instance Op_ret : MRet Op := fun A a out => (Done a, out).

(** Sequencing: a failure that reaches this level aborts what follows. *)
#[global] Instance Op_bind : MBind Op := fun A B k op out =>
  match op out with
  | (Done a, out') => k a out'
  | (Failed f, out') => (Failed f, out')
  end.

(** [print(line)]. *)
Definition print (line : string) : Op unit := fun out => (Done tt, out ++ [line]).

(** The line printed for a caught failure; the specification asks for a
    message and does not give its wording. *)
Definition failure_message (f : Failure) : string :=
  match f with
  | MissingFile name => "Error: missing file " +:+ name
  | SubprocessFailure command => "Error: command failed " +:+ command
  | MalformedJSON text => "Error: malformed JSON " +:+ text
  end.

(** Modelled from the spec: the catch-all of sections 4 and 7, "caught
    broadly per operation and converted to a default/empty value with a
    printed message". *)
Definition caught {A : Type} (op : Op A) (default_value : A) : Op A := fun out =>
  match op out with
  | (Done a, out') => (Done a, out')
  | (Failed f, out') => (_ ← print (failure_message f); mret default_value) out'
  end.

(** Modelled from the spec: the pipeline of section 1, "fetch data via a
    subprocess call -> regex-extract fields -> compute a weighted heuristic
    score -> format a report string": the stages run in order on the data
    passed along, each under the catch-all with a default of its own. *)
Fixpoint run_pipeline {S : Type} (stages : list ((S -> Op S) * S)) (s : S) : Op S :=
  match stages with
  | [] => mret s
  | (stage, default_value) :: rest =>
      s' ← caught (stage s) default_value; run_pipeline rest s'
  end.

(** An operation that returns a value on every run. *)
Definition never_fails {A : Type} (op : Op A) : Prop :=
  forall out, exists a out', op out = (Done a, out').

(** Modelled from the spec: the scorer as an operation of the pipeline,
    "deterministic and side-effect-free given its static weight tables". *)
Definition score_file (T : Scorer.Tables) (path : string) (n_added n_deleted : Z)
  : Op (Z * RiskLevel) :=
  mret (Scorer.heuristic_scorer T path n_added n_deleted).

End Pipeline.

(** ** The aggregator (specification, section 4.2) *)

Module Aggregator.

(** Modelled from the spec: what section 4.2 leaves open, as fields: how a
    path yields its parent directory, the numeric risk score of a file with
    a given risk level, and the "intermediate thresholds" on the three
    aggregates (count of high-risk files, average risk score, summed
    complexity). *)
Record Rules : Type := mkRules {
  parent_directory : string -> string;
  risk_score : RiskLevel -> Q;
  intermediate_thresholds : nat -> Q -> Z -> bool
}.

(** Modelled from the spec: "Groups FileChange records by parent directory":
    each record is appended to the list kept for its directory. *)
Definition group_by_directory (R : Rules) (changes : list FileChange)
  : gmap string (list FileChange) :=
  foldl (fun groups fc =>
           let dir := parent_directory R (fc_path fc) in
           <[dir := default [] (groups !! dir) ++ [fc]]> groups)
        ∅ changes.

(** The records of [changes] whose parent directory is [dir], in the order
    of [changes]. *)
Definition files_in (R : Rules) (dir : string) (changes : list FileChange)
  : list FileChange :=
  filter (fun fc => parent_directory R (fc_path fc) = dir) changes.

(** The sum and the mean of a list of rationals. *)
Definition Qsum (xs : list Q) : Q := foldr Qplus (0 # 1)%Q xs.

Definition average (xs : list Q) : Q :=
  (Qsum xs / inject_Z (Z.of_nat (length xs)))%Q.

(** [x > y] on rationals, as a boolean. *)
Definition Qgtb (x y : Q) : bool := negb (Qle_bool x y).

(** The three aggregates of a module's files. *)
Definition high_risk_count (files : list FileChange) : nat :=
  length (filter (fun fc => fc_risk_level fc = high) files).

Definition average_risk_score (R : Rules) (files : list FileChange) : Q :=
  average ((fun fc => risk_score R (fc_risk_level fc)) <$> files).

Definition total_complexity (files : list FileChange) : Z :=
  foldr Z.add 0 (fc_complexity_score <$> files).

(** The condition that section 4.2 gives for the label high. *)
Definition high_condition (R : Rules) (files : list FileChange) : Prop :=
  (0 < high_risk_count files)%nat \/
  (7 # 10 < average_risk_score R files)%Q \/
  1000 < total_complexity files.

(** Modelled from the spec: "count of high-risk files > 0, or average > 0.7,
    or summed complexity > 1000 => high; intermediate thresholds => medium;
    else low". *)
Definition classify_regression_risk (R : Rules) (files : list FileChange) : RiskLevel :=
  let n_high := high_risk_count files in
  let avg := average_risk_score R files in
  let total := total_complexity files in
  if bool_decide (0 < n_high)%nat || Qgtb avg (7 # 10) || (1000 <? total)
  then high
  else if intermediate_thresholds R n_high avg total then medium
  else low.

(** Modelled from the spec: the impact of one module. *)
Definition module_impact (R : Rules) (files : list FileChange) : ModuleImpact :=
  {| mi_files := files;
     mi_risk_score := average_risk_score R files;
     mi_regression_risk := classify_regression_risk R files |}.

(** Modelled from the spec: the aggregator, from the changed files to the
    impact of each directory. *)
Definition aggregate (R : Rules) (changes : list FileChange) : gmap string ModuleImpact :=
  module_impact R <$> group_by_directory R changes.

End Aggregator.

(** ** Sample tables, for running the models on concrete inputs

    The specification gives no values for the tables; the ones below are
    illustrative and no statement about the models depends on them. *)

Module Samples.

(** The part of a path from its last dot on. *)
Fixpoint suffix (path : string) : option string :=
  match path with
  | EmptyString => None
  | String c rest =>
      match suffix rest with
      | Some s => Some s
      | None => if Ascii.eqb c "."%char then Some path else None
      end
  end.

(** The part of a path before its last slash. *)
Fixpoint dirname (path : string) : option string :=
  match path with
  | EmptyString => None
  | String c rest =>
      match dirname rest with
      | Some d => Some (String c d)
      | None => if Ascii.eqb c "/"%char then Some EmptyString else None
      end
  end.

Definition tables : Scorer.Tables :=
  {| Scorer.file_extension := fun path => default EmptyString (suffix path);
     Scorer.file_type_weights := {[ ".py" := 2; ".md" := 1; ".sql" := 3 ]};
     Scorer.default_file_type_weight := 1;
     Scorer.path_pattern_weights := [("auth", 3); ("core", 2); ("test", 1)];
     Scorer.default_pattern_weight := 1;
     Scorer.historical_risk := {[ "src/core/engine.py" := (9 # 10)%Q ]};
     Scorer.default_historical_risk := (1 # 2)%Q;
     Scorer.size_threshold := 100;
     Scorer.high_risk_patterns := ["security"; "migration"];
     Scorer.combine_risk := fun h big =>
       if big || Aggregator.Qgtb h (7 # 10) then high
       else if Aggregator.Qgtb h (3 # 10) then medium
       else low |}.

(** The same tables written down in another order, one pattern twice. *)
Definition tables_reordered : Scorer.Tables :=
  {| Scorer.file_extension := Scorer.file_extension tables;
     Scorer.file_type_weights := {[ ".sql" := 3; ".md" := 1; ".py" := 2 ]};
     Scorer.default_file_type_weight := 1;
     Scorer.path_pattern_weights :=
       [("test", 1); ("core", 2); ("auth", 3); ("core", 2)];
     Scorer.default_pattern_weight := 1;
     Scorer.historical_risk := Scorer.historical_risk tables;
     Scorer.default_historical_risk := (1 # 2)%Q;
     Scorer.size_threshold := 100;
     Scorer.high_risk_patterns := ["migration"; "security"];
     Scorer.combine_risk := Scorer.combine_risk tables |}.

Definition rules : Aggregator.Rules :=
  {| Aggregator.parent_directory := fun path => default "." (dirname path);
     Aggregator.risk_score := fun r =>
       match r with
       | low => (1 # 5)%Q
       | medium => (1 # 2)%Q
       | high => (9 # 10)%Q
       end;
     Aggregator.intermediate_thresholds := fun _ avg total =>
       Aggregator.Qgtb avg (2 # 5) || (500 <? total) |}.

(** A file change as the scorer derives it from a path and its counts. *)
Definition change (path : string) (n_added n_deleted : Z) : FileChange :=
  {| fc_path := path;
     fc_change_type := modified;
     fc_added := n_added;
     fc_deleted := n_deleted;
     fc_complexity_score := Scorer.complexity_score tables path n_added n_deleted;
     fc_risk_level := Scorer.risk_label tables path n_added n_deleted |}.

Definition changes : list FileChange :=
  [ change "src/core/engine.py" 10 5;
    change "docs/readme.md" 3 0;
    change "src/core/util.py" 1 1;
    change "setup.py" 2 2 ].

(** A stage that fails with a subprocess failure, and one that succeeds. *)
Definition failing_stage (s : list string) : Pipeline.Op (list string) :=
  fun out => (Pipeline.Failed (Pipeline.SubprocessFailure "git diff"), out).

Definition appending_stage (s : list string) : Pipeline.Op (list string) :=
  mret (s ++ ["scored"]).

End Samples.

(** ** Properties of the runtime fragment *)

Lemma getitem_lookup {A : Type} (l : list A) (i : Z) (x : A) :
  0 <= i -> l !! Z.to_nat i = Some x -> getitem l i = Return x.
Proof.
  intros Hi Hx. pose proof (lookup_lt_Some _ _ _ Hx) as Hlt.
  unfold getitem. cbv zeta.
  destruct (Z.ltb_spec i 0) as [?|_]; [lia|].
  destruct (Z.ltb_spec i 0) as [?|_]; [lia|].
  destruct (Z.leb_spec (Z.of_nat (length l)) i) as [?|_]; [lia|].
  simpl. now rewrite Hx.
Qed.

Lemma fib_step (k : nat) : fib (S (S k)) = fib (S k) + fib k.
Proof. reflexivity. Qed.

Lemma first_fib_length (k : nat) : length (first_fib k) = k.
Proof. unfold first_fib. now rewrite length_fmap, length_seq. Qed.

Lemma first_fib_lookup (k i : nat) :
  (i < k)%nat -> first_fib k !! i = Some (fib i).
Proof.
  intros Hi. unfold first_fib.
  rewrite list_lookup_fmap, lookup_seq_lt by exact Hi. reflexivity.
Qed.

Lemma first_fib_snoc (k : nat) : first_fib (S k) = first_fib k ++ [fib k].
Proof. unfold first_fib. now rewrite seq_S, fmap_app. Qed.

(** One iteration of the loop at index [m], started on the first [m]
    Fibonacci numbers, appends the next one. *)
Lemma fibonacci_body_first_fib (m : nat) :
  (2 <= m)%nat ->
  fibonacci_body (Z.of_nat m) (first_fib m) = Return (first_fib (S m)).
Proof.
  intros Hm. destruct m as [|[|k]]; [lia|lia|].
  unfold fibonacci_body.
  rewrite (getitem_lookup _ (Z.of_nat (S (S k)) - 1) (fib (S k))).
  2: lia.
  2: { replace (Z.to_nat (Z.of_nat (S (S k)) - 1)) with (S k) by lia.
       apply first_fib_lookup. lia. }
  cbn [mbind result_bind].
  rewrite (getitem_lookup _ (Z.of_nat (S (S k)) - 2) (fib k)).
  2: lia.
  2: { replace (Z.to_nat (Z.of_nat (S (S k)) - 2)) with k by lia.
       apply first_fib_lookup. lia. }
  cbn [mbind result_bind]. unfold append.
  now rewrite (first_fib_snoc (S (S k))), fib_step.
Qed.

(** The loop invariant: before the iteration for index [i] the list holds
    the first [i] Fibonacci numbers. *)
Lemma for_in_first_fib (k m : nat) :
  (2 <= m)%nat ->
  for_in (seqZ (Z.of_nat m) (Z.of_nat k)) fibonacci_body (first_fib m)
  = Return (first_fib (m + k)).
Proof.
  revert m. induction k as [|k IH]; intros m Hm.
  - simpl. now rewrite Nat.add_0_r.
  - rewrite seqZ_cons by lia. cbn [for_in].
    rewrite fibonacci_body_first_fib by exact Hm.
    cbn [mbind result_bind].
    replace (Z.succ (Z.of_nat m)) with (Z.of_nat (S m)) by lia.
    replace (Z.pred (Z.of_nat (S k))) with (Z.of_nat k) by lia.
    rewrite IH by lia. f_equal. f_equal. lia.
Qed.

(** On a non-negative count, [fibonacci] returns the first [n] Fibonacci
    numbers. *)
Lemma fibonacci_first_fib (n : Z) :
  0 <= n -> fibonacci n = Return (first_fib (Z.to_nat n)).
Proof.
  intros Hn. unfold fibonacci.
  destruct (Z.ltb_spec n 0) as [?|_]; [lia|].
  destruct (Z.eqb_spec n 0) as [->|H0]; [reflexivity|].
  destruct (Z.eqb_spec n 1) as [->|H1]; [reflexivity|].
  destruct (Z.eqb_spec n 2) as [->|H2]; [reflexivity|].
  cbv zeta. unfold range.
  change [0; 1] with (first_fib 2).
  replace (n - 2) with (Z.of_nat (Z.to_nat n - 2)) by lia.
  change 2 with (Z.of_nat 2) at 1.
  rewrite for_in_first_fib by lia.
  cbn [mbind result_bind]. f_equal. f_equal. lia.
Qed.

(** ** The claims about [fibonacci] *)

(** C1. For each n in {0, 1, 2, 5, 10, 15}, [fibonacci n] returns exactly the
    first n Fibonacci numbers: the literal lists of the tests for 0, 1, 2, 5
    and 10, and for 15 a list of length 15 that ends with 233, 377 (read, as
    the test reads them, at the indices -2 and -1). *)
Theorem fibonacci_test_values :
  fibonacci 0 = Return [] /\
  fibonacci 1 = Return [0] /\
  fibonacci 2 = Return [0; 1] /\
  fibonacci 5 = Return [0; 1; 1; 2; 3] /\
  fibonacci 10 = Return [0; 1; 1; 2; 3; 5; 8; 13; 21; 34] /\
  (exists front : list Z,
     fibonacci 15 = Return (front ++ [233; 377]) /\
     length (front ++ [233; 377]) = 15%nat /\
     getitem (front ++ [233; 377]) (-1) = Return 377 /\
     getitem (front ++ [233; 377]) (-2) = Return 233) /\
  Forall (fun n : nat => fibonacci (Z.of_nat n) = Return (first_fib n))
         [0; 1; 2; 5; 10; 15]%nat.
Proof.
  repeat split; try reflexivity.
  - exists (first_fib 13). repeat split; reflexivity.
  - repeat constructor.
Qed.

(** C2. [fibonacci n] raises [ValueError] if and only if n is negative, and
    it returns a list (raises nothing) if and only if n is non-negative. *)
Theorem fibonacci_raises_iff_negative (n : Z) :
  ((exists msg, fibonacci n = Raise (ValueError msg)) <-> n < 0) /\
  ((exists l, fibonacci n = Return l) <-> 0 <= n).
Proof.
  destruct (Z.lt_ge_cases n 0) as [Hneg|Hpos].
  - assert (Hr : fibonacci n = Raise (ValueError "n must be non-negative")).
    { unfold fibonacci. destruct (Z.ltb_spec n 0); [reflexivity|lia]. }
    split; split.
    + intros _. exact Hneg.
    + intros _. eexists. exact Hr.
    + intros [l Hl]. rewrite Hr in Hl. discriminate Hl.
    + lia.
  - pose proof (fibonacci_first_fib n Hpos) as Hr.
    split; split.
    + intros [msg Hm]. rewrite Hr in Hm. discriminate Hm.
    + lia.
    + intros _. exact Hpos.
    + intros _. eexists. exact Hr.
Qed.

(** C3. For every n >= 0, [fibonacci n] returns a list of length exactly n
    whose element at index 0 is 0 (when n >= 1), whose element at index 1 is
    1 (when n >= 2), and in which every element at an index i >= 2 is the sum
    of the elements at the indices i-1 and i-2. *)
Theorem fibonacci_length_and_recurrence (n : Z) :
  0 <= n ->
  exists l : list Z,
    fibonacci n = Return l /\
    Z.of_nat (length l) = n /\
    (1 <= n -> getitem l 0 = Return 0) /\
    (2 <= n -> getitem l 1 = Return 1) /\
    (forall i : Z, 2 <= i < n ->
       exists a b : Z,
         getitem l (i - 1) = Return a /\
         getitem l (i - 2) = Return b /\
         getitem l i = Return (a + b)).
Proof.
  intros Hn. exists (first_fib (Z.to_nat n)).
  split; [exact (fibonacci_first_fib n Hn)|].
  split; [rewrite first_fib_length; lia|].
  split; [|split].
  - intros H1. apply getitem_lookup; [lia|].
    change (Z.to_nat 0) with 0%nat. rewrite first_fib_lookup by lia. reflexivity.
  - intros H2. apply getitem_lookup; [lia|].
    change (Z.to_nat 1) with 1%nat. rewrite first_fib_lookup by lia. reflexivity.
  - intros i Hi. exists (fib (Z.to_nat (i - 1))), (fib (Z.to_nat (i - 2))).
    split; [|split]; apply getitem_lookup; try lia.
    + apply first_fib_lookup. lia.
    + apply first_fib_lookup. lia.
    + rewrite first_fib_lookup by lia. f_equal.
      replace (Z.to_nat i) with (S (S (Z.to_nat (i - 2)))) by lia.
      replace (Z.to_nat (i - 1)) with (S (Z.to_nat (i - 2))) by lia.
      apply fib_step.
Qed.

Lemma fibonacci_length_and_recurrence_witness :
  exists l : list Z,
    fibonacci 7 = Return l /\
    Z.of_nat (length l) = 7 /\
    (1 <= 7 -> getitem l 0 = Return 0) /\
    (2 <= 7 -> getitem l 1 = Return 1) /\
    (forall i : Z, 2 <= i < 7 ->
       exists a b : Z,
         getitem l (i - 1) = Return a /\
         getitem l (i - 2) = Return b /\
         getitem l i = Return (a + b)).
Proof. apply (fibonacci_length_and_recurrence 7). lia. Defined.

(** C4. Under the precondition n >= 0 the evaluation of [fibonacci n] never
    takes the branch of the [raise] statement: the guard [n < 0] is false,
    no exception of any kind comes out (the list reads of the loop stay in
    range as well), and a list is returned. *)
Theorem fibonacci_total_on_nonnegative (n : Z) :
  0 <= n ->
  (n <? 0) = false /\
  (forall e : exn, fibonacci n <> Raise e) /\
  (exists l : list Z, fibonacci n = Return l).
Proof.
  intros Hn. pose proof (fibonacci_first_fib n Hn) as Hr.
  split; [lia|]. split.
  - intros e He. rewrite Hr in He. discriminate He.
  - eexists. exact Hr.
Qed.

Lemma fibonacci_total_on_nonnegative_witness :
  (3 <? 0) = false /\
  (forall e : exn, fibonacci 3 <> Raise e) /\
  (exists l : list Z, fibonacci 3 = Return l).
Proof. apply (fibonacci_total_on_nonnegative 3). lia. Defined.

(** C5. For every n >= 0, [fibonacci n] is a prefix of [fibonacci (n+1)]:
    asking for one more number appends exactly one element and leaves the
    first n elements unchanged. *)
Theorem fibonacci_prefix_of_next (n : Z) :
  0 <= n ->
  exists (l : list Z) (x : Z),
    fibonacci n = Return l /\
    fibonacci (n + 1) = Return (l ++ [x]) /\
    l `prefix_of` (l ++ [x]).
Proof.
  intros Hn. exists (first_fib (Z.to_nat n)), (fib (Z.to_nat n)).
  split; [exact (fibonacci_first_fib n Hn)|]. split.
  - rewrite fibonacci_first_fib by lia.
    replace (Z.to_nat (n + 1)) with (S (Z.to_nat n)) by lia.
    now rewrite first_fib_snoc.
  - now apply prefix_app_r.
Qed.

Lemma fibonacci_prefix_of_next_witness :
  exists (l : list Z) (x : Z),
    fibonacci 4 = Return l /\
    fibonacci (4 + 1) = Return (l ++ [x]) /\
    l `prefix_of` (l ++ [x]).
Proof. apply (fibonacci_prefix_of_next 4). lia. Defined.

(** ** Properties of the scorer model *)

Section ScorerFacts.
Import Scorer.

Lemma foldl_max_lower (ws : list Z) (w : Z) : w <= foldl Z.max w ws.
Proof.
  revert w. induction ws as [|x ws IH]; intros w; simpl; [lia|].
  specialize (IH (Z.max w x)). lia.
Qed.

Lemma foldl_max_upper (ws : list Z) (w x : Z) :
  x ∈ ws -> x <= foldl Z.max w ws.
Proof.
  revert w. induction ws as [|y ws IH]; intros w Hx; simpl.
  - inversion Hx.
  - apply elem_of_cons in Hx as [->|Hx].
    + pose proof (foldl_max_lower ws (Z.max w y)). lia.
    + now apply IH.
Qed.

Lemma foldl_max_attained (ws : list Z) (w : Z) : foldl Z.max w ws ∈ w :: ws.
Proof.
  revert w. induction ws as [|y ws IH]; intros w; simpl.
  - apply list_elem_of_singleton. reflexivity.
  - specialize (IH (Z.max w y)).
    apply elem_of_cons in IH as [Heq|Hin].
    + rewrite Heq. destruct (Z.max_spec w y) as [[_ ->]|[_ ->]].
      * apply elem_of_cons; right; apply elem_of_cons; left; reflexivity.
      * apply elem_of_cons; left; reflexivity.
    + apply elem_of_cons; right; apply elem_of_cons; right; exact Hin.
Qed.

Lemma matching_weights_spec (T : Tables) (path : string) (w : Z) :
  w ∈ matching_weights T path <->
  exists pat, (pat, w) ∈ path_pattern_weights T /\ is_substring pat path = true.
Proof.
  unfold matching_weights. rewrite list_elem_of_fmap. split.
  - intros [[pat w'] [-> Hin]]. apply list_elem_of_filter in Hin as [Hm Hin].
    exists pat. split; [exact Hin|]. simpl in Hm. now apply Is_true_true.
  - intros [pat [Hin Hm]]. exists (pat, w). split; [reflexivity|].
    apply list_elem_of_filter. split; [|exact Hin].
    simpl. now apply Is_true_true.
Qed.

(** The pattern weight is the maximum of the weights of the patterns that
    occur in the path, and the default when none does. *)
Lemma pattern_weight_is_max (T : Tables) (path : string) :
  (forall pat w, (pat, w) ∈ path_pattern_weights T ->
                 is_substring pat path = true -> w <= pattern_weight T path) /\
  ((exists pat, (pat, pattern_weight T path) ∈ path_pattern_weights T /\
                is_substring pat path = true) \/
   ((forall pat w, (pat, w) ∈ path_pattern_weights T ->
                   is_substring pat path = false) /\
    pattern_weight T path = default_pattern_weight T)).
Proof.
  pose proof (matching_weights_spec T path) as Hspec.
  unfold pattern_weight. destruct (matching_weights T path) as [|w0 ws] eqn:Hmw.
  - split.
    + intros pat w Hin Hm.
      assert (Hw : w ∈ @nil Z) by (apply Hspec; eauto).
      inversion Hw.
    + right. split; [|reflexivity]. intros pat w Hin.
      destruct (is_substring pat path) eqn:Hm; [|reflexivity].
      assert (Hw : w ∈ @nil Z) by (apply Hspec; eauto).
      inversion Hw.
  - split.
    + intros pat w Hin Hm.
      assert (Hw : w ∈ w0 :: ws) by (apply Hspec; eauto).
      apply elem_of_cons in Hw as [->|Hw].
      * apply foldl_max_lower.
      * now apply foldl_max_upper.
    + left. apply Hspec. apply foldl_max_attained.
Qed.

Lemma forced_high_spec (T : Tables) (path : string) :
  forced_high T path = true <->
  exists pat, pat ∈ high_risk_patterns T /\ is_substring pat path = true.
Proof.
  unfold forced_high. rewrite existsb_exists. split.
  - intros [pat [Hin Hm]]. exists pat. split; [|exact Hm].
    now apply list_elem_of_In.
  - intros [pat [Hin Hm]]. exists pat. split; [|exact Hm].
    now apply list_elem_of_In.
Qed.

(** The scorer reads its tables as mappings and sets: tables with the same
    content give the same weights, the same override and the same result. *)
Lemma pattern_weight_same_tables (T1 T2 : Tables) (path : string) :
  same_tables T1 T2 -> pattern_weight T1 path = pattern_weight T2 path.
Proof.
  intros (_ & _ & _ & Hpat & Hdef & _).
  destruct (pattern_weight_is_max T1 path) as [Hup1 Hat1].
  destruct (pattern_weight_is_max T2 path) as [Hup2 Hat2].
  destruct Hat1 as [(p1 & Hin1 & Hm1)|[Hnone1 He1]];
    destruct Hat2 as [(p2 & Hin2 & Hm2)|[Hnone2 He2]].
  - apply Hpat in Hin1. apply Hpat in Hin2.
    pose proof (Hup2 _ _ Hin1 Hm1). pose proof (Hup1 _ _ Hin2 Hm2). lia.
  - apply Hpat in Hin1. rewrite (Hnone2 _ _ Hin1) in Hm1. discriminate Hm1.
  - apply Hpat in Hin2. rewrite (Hnone1 _ _ Hin2) in Hm2. discriminate Hm2.
  - congruence.
Qed.

Lemma forced_high_same_tables (T1 T2 : Tables) (path : string) :
  same_tables T1 T2 -> forced_high T1 path = forced_high T2 path.
Proof.
  intros (_ & _ & _ & _ & _ & _ & _ & _ & Hhigh & _).
  pose proof (forced_high_spec T1 path) as H1.
  pose proof (forced_high_spec T2 path) as H2.
  destruct (forced_high T1 path), (forced_high T2 path); try reflexivity.
  - destruct H1 as [H1 _]. destruct (H1 eq_refl) as (pat & Hin & Hm).
    apply Hhigh in Hin. destruct H2 as [_ H2]. symmetry. apply H2. eauto.
  - destruct H2 as [H2 _]. destruct (H2 eq_refl) as (pat & Hin & Hm).
    apply Hhigh in Hin. destruct H1 as [_ H1]. apply H1. eauto.
Qed.

Lemma heuristic_scorer_same_tables
      (T1 T2 : Tables) (path : string) (n_added n_deleted : Z) :
  same_tables T1 T2 ->
  heuristic_scorer T1 path n_added n_deleted
  = heuristic_scorer T2 path n_added n_deleted.
Proof.
  intros Hsame.
  pose proof (pattern_weight_same_tables T1 T2 path Hsame) as Hpw.
  pose proof (forced_high_same_tables T1 T2 path Hsame) as Hfh.
  destruct Hsame as (Hext & Hftw & Hdft & _ & _ & Hhist & Hdh & Hsize & _ & Hcomb).
  unfold heuristic_scorer, complexity_score, risk_label, file_type_weight,
    lookup_historical_risk, over_size_threshold.
  now rewrite Hpw, Hfh, Hext, Hftw, Hdft, Hhist, Hdh, Hsize, Hcomb.
Qed.

End ScorerFacts.

(** ** Properties of the pipeline model *)

Section PipelineFacts.
Import Pipeline.

Lemma caught_never_fails {A : Type} (op : Op A) (default_value : A) :
  never_fails (caught op default_value).
Proof.
  intros out. unfold caught. destruct (op out) as [[a|f] out']; eauto.
Qed.

Lemma run_pipeline_never_fails {S : Type} (stages : list ((S -> Op S) * S)) (s : S) :
  never_fails (run_pipeline stages s).
Proof.
  revert s. induction stages as [|[stage d] rest IH]; intros s out.
  - exists s, out. reflexivity.
  - cbn [run_pipeline]. unfold mbind, Op_bind.
    destruct (caught_never_fails (stage s) d out) as (s' & out' & ->).
    apply IH.
Qed.

(** A pipeline run stage by stage: the stages of the front part run to
    their end, and the rest starts from the data and the output they leave. *)
Lemma run_pipeline_app {S : Type} (front rest : list ((S -> Op S) * S)) (s : S)
      (out : list string) :
  run_pipeline (front ++ rest) s out
  = match run_pipeline front s out with
    | (Done s1, out1) => run_pipeline rest s1 out1
    | (Failed f, out1) => (Failed f, out1)
    end.
Proof.
  revert s out. induction front as [|[stage d] front IH]; intros s out.
  - reflexivity.
  - cbn [app run_pipeline]. unfold mbind, Op_bind.
    destruct (caught_never_fails (stage s) d out) as (s1 & out1 & ->).
    apply IH.
Qed.

(** One stage and what follows it. *)
Lemma run_pipeline_cons {S : Type} (stage : S -> Op S) (d : S)
      (rest : list ((S -> Op S) * S)) (s : S) (out : list string) :
  run_pipeline ((stage, d) :: rest) s out
  = match stage s out with
    | (Done a, out') => run_pipeline rest a out'
    | (Failed f, out') => run_pipeline rest d (out' ++ [failure_message f])
    end.
Proof.
  cbn [run_pipeline]. unfold mbind, Op_bind, caught.
  now destruct (stage s out) as [[a|f] out'].
Qed.

End PipelineFacts.

(** ** The claims about the heuristic pipeline *)



(** C7. Given a file path and line-change counts, the heuristic scorer
    returns an integer complexity score equal to (added+deleted lines) times
    the file-type weight times the maximum weight of the path patterns that
    occur in the path, and a risk label that is "high" whenever one of the
    forcing substrings occurs in the path and is otherwise derived from the
    historical-risk lookup and the size threshold; a missing historical
    lookup defaults to a constant. *)
Theorem heuristic_scorer_contract
  (T : Scorer.Tables) (path : string) (n_added n_deleted : Z) :
  exists (score : Z) (label : RiskLevel),
    Scorer.heuristic_scorer T path n_added n_deleted = (score, label) /\
    score = (n_added + n_deleted) * Scorer.file_type_weight T path
            * Scorer.pattern_weight T path /\
    Scorer.file_type_weight T path
    = match Scorer.file_type_weights T !! Scorer.file_extension T path with
      | Some w => w
      | None => Scorer.default_file_type_weight T
      end /\
    (forall pat w, (pat, w) ∈ Scorer.path_pattern_weights T ->
                   Scorer.is_substring pat path = true ->
                   w <= Scorer.pattern_weight T path) /\
    ((exists pat, (pat, Scorer.pattern_weight T path) ∈ Scorer.path_pattern_weights T /\
                  Scorer.is_substring pat path = true) \/
     ((forall pat w, (pat, w) ∈ Scorer.path_pattern_weights T ->
                     Scorer.is_substring pat path = false) /\
      Scorer.pattern_weight T path = Scorer.default_pattern_weight T)) /\
    ((exists pat, pat ∈ Scorer.high_risk_patterns T /\
                  Scorer.is_substring pat path = true) ->
     label = high) /\
    ((forall pat, pat ∈ Scorer.high_risk_patterns T ->
                  Scorer.is_substring pat path = false) ->
     label = Scorer.combine_risk T (Scorer.lookup_historical_risk T path)
                                 (Scorer.size_threshold T <? n_added + n_deleted)) /\
    (Scorer.historical_risk T !! path = None ->
     Scorer.lookup_historical_risk T path = Scorer.default_historical_risk T) /\
    (forall h, Scorer.historical_risk T !! path = Some h ->
               Scorer.lookup_historical_risk T path = h).
Proof.
  exists (Scorer.complexity_score T path n_added n_deleted),
         (Scorer.risk_label T path n_added n_deleted).
  destruct (pattern_weight_is_max T path) as [Hupper Hattained].
  split; [reflexivity|]. split; [reflexivity|].
  split.
  { unfold Scorer.file_type_weight.
    now destruct (Scorer.file_type_weights T !! Scorer.file_extension T path). }
  split; [exact Hupper|]. split; [exact Hattained|].
  split; [|split; [|split]].
  - intros Hforced. apply forced_high_spec in Hforced.
    unfold Scorer.risk_label. now rewrite Hforced.
  - intros Hnone. unfold Scorer.risk_label.
    destruct (Scorer.forced_high T path) eqn:Hf; [|reflexivity].
    apply forced_high_spec in Hf as [pat [Hin Hm]].
    rewrite (Hnone pat Hin) in Hm. discriminate Hm.
  - intros Hmiss. unfold Scorer.lookup_historical_risk. now rewrite Hmiss.
  - intros h Hh. unfold Scorer.lookup_historical_risk. now rewrite Hh.
Qed.


(** ** Properties of the aggregator model *)

Section AggregatorFacts.
Import Aggregator.

Variable R : Rules.

(** Grouping, started from any table of groups: the list kept for [dir] grows
    by the files of [dir], and a directory without files keeps its entry. *)
Lemma group_fold_lookup (changes : list FileChange)
      (groups : gmap string (list FileChange)) (dir : string) :
  foldl (fun groups fc =>
           let d := parent_directory R (fc_path fc) in
           <[d := default [] (groups !! d) ++ [fc]]> groups)
        groups changes !! dir
  = match files_in R dir changes with
    | [] => groups !! dir
    | fs => Some (default [] (groups !! dir) ++ fs)
    end.
Proof.
  revert groups. induction changes as [|fc cs IH]; intros groups.
  - reflexivity.
  - cbn [foldl]. rewrite IH. cbv zeta. unfold files_in.
    destruct (decide (parent_directory R (fc_path fc) = dir)) as [Heq|Hne].
    + rewrite filter_cons_True by exact Heq. rewrite Heq, lookup_insert_eq.
      fold (files_in R dir cs). destruct (files_in R dir cs) as [|f fs].
      * reflexivity.
      * simpl. now rewrite <- app_assoc.
    + rewrite filter_cons_False by exact Hne.
      now rewrite lookup_insert_ne by exact Hne.
Qed.

Lemma group_by_directory_lookup (changes : list FileChange) (dir : string) :
  group_by_directory R changes !! dir
  = match files_in R dir changes with
    | [] => None
    | fs => Some fs
    end.
Proof.
  unfold group_by_directory. rewrite group_fold_lookup, lookup_empty.
  now destruct (files_in R dir changes).
Qed.

Lemma Qgtb_spec (x y : Q) : Qgtb x y = true <-> (y < x)%Q.
Proof.
  unfold Qgtb. rewrite negb_true_iff. split.
  - intros Hb. apply Qnot_le_lt. intros Hle.
    apply Qle_bool_iff in Hle. congruence.
  - intros Hlt. destruct (Qle_bool x y) eqn:Hb; [|reflexivity].
    apply Qle_bool_iff in Hb. exfalso. exact (Qlt_not_le _ _ Hlt Hb).
Qed.

(** The average times the number of values is their sum. *)
Lemma average_times_count (xs : list Q) :
  xs <> [] ->
  (average xs * inject_Z (Z.of_nat (length xs)) == Qsum xs)%Q.
Proof.
  intros Hne. unfold average. rewrite Qmult_comm. apply Qmult_div_r.
  destruct xs as [|x xs]; [congruence|].
  unfold Qeq, inject_Z. cbn [Qnum Qden length]. lia.
Qed.

Lemma high_condition_bool (files : list FileChange) :
  bool_decide (0 < high_risk_count files)%nat
  || Qgtb (average_risk_score R files) (7 # 10)
  || (1000 <? total_complexity files) = true
  <-> high_condition R files.
Proof.
  unfold high_condition.
  rewrite !orb_true_iff, bool_decide_eq_true, Qgtb_spec, Z.ltb_lt. tauto.
Qed.

Lemma classify_regression_risk_cases (files : list FileChange) :
  (classify_regression_risk R files = high <-> high_condition R files) /\
  (classify_regression_risk R files = medium <->
     ~ high_condition R files /\
     intermediate_thresholds R (high_risk_count files) (average_risk_score R files)
                             (total_complexity files) = true) /\
  (classify_regression_risk R files = low <->
     ~ high_condition R files /\
     intermediate_thresholds R (high_risk_count files) (average_risk_score R files)
                             (total_complexity files) = false).
Proof.
  pose proof (high_condition_bool files) as Hb.
  unfold classify_regression_risk. cbv zeta.
  destruct (bool_decide (0 < high_risk_count files)%nat
            || Qgtb (average_risk_score R files) (7 # 10)
            || (1000 <? total_complexity files)) eqn:Hc.
  - assert (Hh : high_condition R files) by now apply Hb.
    repeat split; try discriminate; tauto.
  - assert (Hh : ~ high_condition R files).
    { intros H. apply Hb in H. discriminate H. }
    destruct (intermediate_thresholds R _ _ _);
      repeat split; try discriminate; try tauto; intros [_ ?]; discriminate.
Qed.

End AggregatorFacts.

(** C9. The aggregator groups the FileChange records by parent directory
    (the module of a directory holds exactly the records of that directory,
    and a directory without records has no module), its risk score is the
    average of the per-file risk scores, and its regression risk is high
    exactly when the count of high-risk files is > 0, or the average is
    > 0.7, or the summed complexity is > 1000; otherwise it is medium when
    the intermediate thresholds are met, and low when they are not. *)
Theorem aggregate_groups_and_classifies
  (R : Aggregator.Rules) (changes : list FileChange) (dir : string) :
  let files := Aggregator.files_in R dir changes in
  let scores := (fun fc => Aggregator.risk_score R (fc_risk_level fc)) <$> files in
  let n_high := Aggregator.high_risk_count files in
  let total := Aggregator.total_complexity files in
  (files = [] <-> Aggregator.aggregate R changes !! dir = None) /\
  (files <> [] ->
   exists impact : ModuleImpact,
     Aggregator.aggregate R changes !! dir = Some impact /\
     mi_files impact = files /\
     (mi_risk_score impact * inject_Z (Z.of_nat (length files))
      == Aggregator.Qsum scores)%Q /\
     (mi_regression_risk impact = high <->
        (0 < n_high)%nat \/ (7 # 10 < mi_risk_score impact)%Q \/ 1000 < total) /\
     (mi_regression_risk impact = medium <->
        ~ ((0 < n_high)%nat \/ (7 # 10 < mi_risk_score impact)%Q \/ 1000 < total) /\
        Aggregator.intermediate_thresholds R n_high (mi_risk_score impact) total = true) /\
     (mi_regression_risk impact = low <->
        ~ ((0 < n_high)%nat \/ (7 # 10 < mi_risk_score impact)%Q \/ 1000 < total) /\
        Aggregator.intermediate_thresholds R n_high (mi_risk_score impact) total = false)).
Proof.
  cbv zeta. unfold Aggregator.aggregate.
  rewrite lookup_fmap, group_by_directory_lookup.
  destruct (Aggregator.files_in R dir changes) as [|f fs] eqn:Hfiles.
  - split; [split; reflexivity|]. intros Hne. congruence.
  - split; [split; intros H; discriminate H|]. intros _.
    exists (Aggregator.module_impact R (f :: fs)).
    split; [reflexivity|]. split; [reflexivity|]. split.
    + cbn [mi_risk_score Aggregator.module_impact].
      unfold Aggregator.average_risk_score.
      rewrite <- (length_fmap (fun fc => Aggregator.risk_score R (fc_risk_level fc))).
      apply average_times_count. discriminate.
    + exact (classify_regression_risk_cases R (f :: fs)).
Qed.

(** ** What the scorer model fixes about the change size

    The size test itself is monotone in the number of changed lines. The
    risk label inherits this exactly where the combination of the looked-up
    risk and the size test does; the specification leaves that combination
    open. *)

Lemma over_size_threshold_monotone
  (T : Scorer.Tables) (a1 d1 a2 d2 : Z) :
  a1 + d1 <= a2 + d2 ->
  Scorer.over_size_threshold T a1 d1 = true ->
  Scorer.over_size_threshold T a2 d2 = true.
Proof.
  unfold Scorer.over_size_threshold. rewrite !Z.ltb_lt. lia.
Qed.

Lemma risk_label_monotone_when_combine_is
  (T : Scorer.Tables) (path : string) (a1 d1 a2 d2 : Z) :
  (forall h : Q,
     risk_rank (Scorer.combine_risk T h false)
     <= risk_rank (Scorer.combine_risk T h true)) ->
  a1 + d1 <= a2 + d2 ->
  risk_rank (Scorer.risk_label T path a1 d1)
  <= risk_rank (Scorer.risk_label T path a2 d2).
Proof.
  intros Hcombine Hsize. unfold Scorer.risk_label.
  destruct (Scorer.forced_high T path); [lia|].
  destruct (Scorer.over_size_threshold T a1 d1) eqn:H1.
  - rewrite (over_size_threshold_monotone T a1 d1 a2 d2 Hsize H1). lia.
  - destruct (Scorer.over_size_threshold T a2 d2); [apply Hcombine|lia].
Qed.

(** ** The models on the sample tables *)

Example fibonacci_minus_1 :
  fibonacci (-1) = Raise (ValueError "n must be non-negative").
Proof. reflexivity. Qed.

Example fibonacci_15_last :
  (l ← fibonacci 15; getitem l (-1)) = Return 377.
Proof. reflexivity. Qed.

Example getitem_out_of_range :
  getitem [0; 1] 2 = Raise (IndexError "list index out of range").
Proof. reflexivity. Qed.

Example getitem_index_sizes :
  getitem [0; 1] (2 ^ 63)
  = Raise (IndexError "cannot fit 'int' into an index-sized integer") /\
  getitem [0; 1] (- 2 ^ 63 - 1)
  = Raise (IndexError "cannot fit 'int' into an index-sized integer") /\
  getitem [0; 1] (2 ^ 63 - 1) = Raise (IndexError "list index out of range") /\
  getitem [0; 1] (- 2 ^ 63) = Raise (IndexError "list index out of range") /\
  getitem [0; 1] (-2) = Return 0.
Proof. repeat split; reflexivity. Qed.

Example score_reordered_tables :
  Scorer.heuristic_scorer Samples.tables_reordered "src/core/auth_test.py" 10 5
  = (90, medium).
Proof. vm_compute. reflexivity. Qed.

Example score_core_engine :
  Scorer.heuristic_scorer Samples.tables "src/core/engine.py" 10 5 = (60, high).
Proof. vm_compute. reflexivity. Qed.

Example score_forced_high :
  Scorer.heuristic_scorer Samples.tables "db/migration_7.sql" 1 0 = (3, high).
Proof. vm_compute. reflexivity. Qed.

Example score_default_lookup :
  Scorer.heuristic_scorer Samples.tables "docs/readme.md" 3 0 = (3, medium).
Proof. vm_compute. reflexivity. Qed.

Example aggregate_src_core :
  mi_regression_risk <$> (Aggregator.aggregate Samples.rules Samples.changes !! "src/core")
  = Some high /\
  mi_regression_risk <$> (Aggregator.aggregate Samples.rules Samples.changes !! "docs")
  = Some medium /\
  Aggregator.aggregate Samples.rules Samples.changes !! "src" = None /\
  (fun impact => fc_path <$> mi_files impact)
    <$> (Aggregator.aggregate Samples.rules Samples.changes !! ".")
  = Some ["setup.py"].
Proof. vm_compute. repeat split; reflexivity. Qed.

Example pipeline_survives_failure :
  Pipeline.run_pipeline
    [(Samples.failing_stage, []); (Samples.appending_stage, [])] ["raw"] []
  = (Pipeline.Done ["scored"], ["Error: command failed git diff"]).
Proof. reflexivity. Qed.

(** ** Further properties of [fibonacci] *)

(** Reading a list at a negative index in range. *)
Lemma getitem_negative {A : Type} (l : list A) (i : Z) (x : A) :
  i < 0 ->
  0 <= i + Z.of_nat (length l) ->
  l !! Z.to_nat (i + Z.of_nat (length l)) = Some x ->
  getitem l i = Return x.
Proof.
  intros Hneg Hlo Hx. unfold getitem. cbv zeta.
  destruct (Z.ltb_spec i 0) as [_|?]; [|lia].
  destruct (Z.ltb_spec (i + Z.of_nat (length l)) 0) as [?|_]; [lia|].
  destruct (Z.leb_spec (Z.of_nat (length l)) (i + Z.of_nat (length l))) as [?|_];
    [lia|].
  simpl. now rewrite Hx.
Qed.

(** Reading a list outside [-len, len) raises [IndexError], with the
    message that the index calls for. *)
Lemma getitem_outside {A : Type} (l : list A) (i : Z) :
  i < - Z.of_nat (length l) \/ Z.of_nat (length l) <= i ->
  getitem l i
  = Raise (IndexError (if fits_index i
                       then "list index out of range"
                       else "cannot fit 'int' into an index-sized integer")).
Proof.
  intros Hout. unfold getitem. cbv zeta.
  destruct (Z.ltb_spec i 0) as [Hi|Hi].
  - destruct (Z.ltb_spec (i + Z.of_nat (length l)) 0) as [_|?]; [|lia].
    cbn [orb]. now destruct (fits_index i).
  - destruct (Z.ltb_spec i 0) as [?|_]; [lia|].
    destruct (Z.leb_spec (Z.of_nat (length l)) i) as [_|?]; [|lia].
    cbn [orb]. now destruct (fits_index i).
Qed.

(** For a list that the runtime can hold, the test on the index size may
    as well come first, as it does in the runtime: an index that does not
    fit is refused whatever the list holds. *)
Lemma getitem_does_not_fit {A : Type} (l : list A) (i : Z) :
  Z.of_nat (length l) <= maxsize ->
  fits_index i = false ->
  getitem l i = Raise (IndexError "cannot fit 'int' into an index-sized integer").
Proof.
  intros Hlen Hfit. rewrite getitem_outside; [now rewrite Hfit|].
  unfold fits_index in Hfit. apply andb_false_iff in Hfit.
  destruct Hfit as [H|H]; [apply Z.leb_gt in H|apply Z.leb_gt in H]; lia.
Qed.

Lemma fib_nonneg_pair (k : nat) : 0 <= fib k /\ 0 <= fib (S k).
Proof.
  induction k as [|k [IH0 IH1]].
  - split; simpl; lia.
  - split; [exact IH1|]. rewrite fib_step. lia.
Qed.

Lemma fib_nonneg (k : nat) : 0 <= fib k.
Proof. apply fib_nonneg_pair. Qed.

Lemma fib_le_succ (k : nat) : fib k <= fib (S k).
Proof.
  destruct k as [|k]; [simpl; lia|].
  rewrite fib_step. pose proof (fib_nonneg k). lia.
Qed.

Lemma fib_monotone (i j : nat) : (i <= j)%nat -> fib i <= fib j.
Proof.
  induction 1 as [|j _ IH]; [lia|].
  pose proof (fib_le_succ j). lia.
Qed.

Lemma fib_positive (k : nat) : (1 <= k)%nat -> 1 <= fib k.
Proof.
  intros Hk. change 1 with (fib 1). now apply fib_monotone.
Qed.

Lemma fib_lt_succ (k : nat) : (2 <= k)%nat -> fib k < fib (S k).
Proof.
  intros Hk. destruct k as [|k]; [lia|].
  rewrite fib_step. pose proof (fib_positive k). lia.
Qed.

Lemma fib_strictly_monotone (i j : nat) :
  (2 <= i)%nat -> (i < j)%nat -> fib i < fib j.
Proof.
  intros Hi Hij.
  pose proof (fib_lt_succ i Hi). pose proof (fib_monotone (S i) j Hij). lia.
Qed.

Lemma fib_below_power_pair (k : nat) :
  fib k < 2 ^ Z.of_nat k /\ fib (S k) < 2 ^ Z.of_nat (S k).
Proof.
  induction k as [|k [IH0 IH1]].
  - split; reflexivity.
  - split; [exact IH1|]. rewrite fib_step.
    replace (Z.of_nat (S (S k))) with (Z.of_nat (S k) + 1) by lia.
    replace (Z.of_nat (S k)) with (Z.of_nat k + 1) in * by lia.
    rewrite !Z.pow_add_r in * by lia. lia.
Qed.

Lemma foldr_add_snoc (l : list Z) (x : Z) :
  foldr Z.add 0 (l ++ [x]) = foldr Z.add 0 l + x.
Proof. induction l as [|y l IH]; simpl; lia. Qed.

Lemma sum_first_fib (k : nat) : foldr Z.add 0 (first_fib k) + 1 = fib (S k).
Proof.
  induction k as [|k IH]; [reflexivity|].
  rewrite first_fib_snoc, foldr_add_snoc, fib_step. lia.
Qed.

Lemma first_fib_take (m k : nat) :
  (m <= k)%nat -> take m (first_fib k) = first_fib m.
Proof.
  intros Hmk. unfold first_fib.
  rewrite <- fmap_take, take_seq. f_equal. f_equal. lia.
Qed.

(** X1. For every n and every index 0 <= i < n, the element at index i of
    [fibonacci n] is the i-th Fibonacci number F(i), where F(0) = 0,
    F(1) = 1 and F(k+2) = F(k+1) + F(k). *)
Theorem fibonacci_element (n i : Z) :
  0 <= i < n ->
  exists l : list Z,
    fibonacci n = Return l /\ getitem l i = Return (fib (Z.to_nat i)).
Proof.
  intros Hi. exists (first_fib (Z.to_nat n)).
  split; [apply fibonacci_first_fib; lia|].
  apply getitem_lookup; [lia|]. apply first_fib_lookup. lia.
Qed.

Lemma fibonacci_element_witness :
  exists l : list Z,
    fibonacci 10 = Return l /\ getitem l 9 = Return (fib (Z.to_nat 9)).
Proof. apply (fibonacci_element 10 9). lia. Defined.

(** X2. For 0 <= m <= n, [fibonacci m] is the list of the first m elements
    of [fibonacci n]: a shorter request is answered by cutting a longer
    one. *)
Theorem fibonacci_take (m n : Z) :
  0 <= m <= n ->
  exists l : list Z,
    fibonacci n = Return l /\
    fibonacci m = Return (take (Z.to_nat m) l).
Proof.
  intros Hmn. exists (first_fib (Z.to_nat n)).
  split; [apply fibonacci_first_fib; lia|].
  rewrite first_fib_take by lia. apply fibonacci_first_fib. lia.
Qed.

Lemma fibonacci_take_witness :
  exists l : list Z,
    fibonacci 8 = Return l /\
    fibonacci 3 = Return (take (Z.to_nat 3) l).
Proof. apply (fibonacci_take 3 8). lia. Defined.

(** X3. Read from the end, as [test_fibonacci_large] does: for
    -n <= i < 0 the element at the negative index i of [fibonacci n] is
    F(n+i); in particular the last element is F(n-1). *)
Theorem fibonacci_negative_index (n i : Z) :
  - n <= i < 0 ->
  exists l : list Z,
    fibonacci n = Return l /\ getitem l i = Return (fib (Z.to_nat (n + i))).
Proof.
  intros Hi. exists (first_fib (Z.to_nat n)).
  split; [apply fibonacci_first_fib; lia|].
  apply getitem_negative; rewrite ?first_fib_length; try lia.
  rewrite first_fib_lookup by lia. do 2 f_equal. lia.
Qed.

Lemma fibonacci_negative_index_witness :
  exists l : list Z,
    fibonacci 15 = Return l /\
    getitem l (-2) = Return (fib (Z.to_nat (15 + -2))).
Proof. apply (fibonacci_negative_index 15 (-2)). lia. Defined.

(** X4. The list returned for n >= 0 has no element at index n or beyond,
    nor below -n: reading it there raises [IndexError], with the message
    "list index out of range" when the index fits an index-sized integer
    and "cannot fit 'int' into an index-sized integer" when it does not.
    The list stops at index n-1, so [fibonacci n] read at index n does not
    give F(n). *)
Theorem fibonacci_index_out_of_range (n i : Z) :
  0 <= n ->
  i < - n \/ n <= i ->
  exists l : list Z,
    fibonacci n = Return l /\
    getitem l i
    = Raise (IndexError (if fits_index i
                         then "list index out of range"
                         else "cannot fit 'int' into an index-sized integer")).
Proof.
  intros Hn Hi. exists (first_fib (Z.to_nat n)).
  split; [apply fibonacci_first_fib; lia|].
  apply getitem_outside. rewrite first_fib_length. lia.
Qed.

Lemma fibonacci_index_out_of_range_witness :
  exists l : list Z,
    fibonacci 5 = Return l /\
    getitem l (2 ^ 63)
    = Raise (IndexError (if fits_index (2 ^ 63)
                         then "list index out of range"
                         else "cannot fit 'int' into an index-sized integer")).
Proof. apply (fibonacci_index_out_of_range 5 (2 ^ 63)); lia. Defined.

(** X5. The list returned for n >= 0 holds no negative number and is sorted:
    an element never exceeds a later one, and from index 2 on the elements
    increase strictly. *)
Theorem fibonacci_sorted (n : Z) :
  0 <= n ->
  exists l : list Z,
    fibonacci n = Return l /\
    Forall (fun x => 0 <= x) l /\
    (forall i j x y, 0 <= i <= j -> getitem l i = Return x ->
                     getitem l j = Return y -> x <= y) /\
    (forall i j x y, 2 <= i < j -> getitem l i = Return x ->
                     getitem l j = Return y -> x < y).
Proof.
  intros Hn. exists (first_fib (Z.to_nat n)).
  split; [apply fibonacci_first_fib; lia|].
  assert (Hread : forall i x, 0 <= i ->
            getitem (first_fib (Z.to_nat n)) i = Return x ->
            x = fib (Z.to_nat i)).
  { intros i x Hi Hx.
    destruct (Z.lt_ge_cases i n) as [Hlt|Hge].
    - rewrite (getitem_lookup _ i (fib (Z.to_nat i))) in Hx; [congruence|lia|].
      apply first_fib_lookup. lia.
    - rewrite getitem_outside in Hx; [discriminate Hx|].
      rewrite first_fib_length. lia. }
  split; [|split].
  - unfold first_fib. apply Forall_fmap, Forall_forall. intros k _.
    apply fib_nonneg.
  - intros i j x y Hij Hx Hy.
    rewrite (Hread i x) by (lia || exact Hx).
    rewrite (Hread j y) by (lia || exact Hy).
    apply fib_monotone. lia.
  - intros i j x y Hij Hx Hy.
    rewrite (Hread i x) by (lia || exact Hx).
    rewrite (Hread j y) by (lia || exact Hy).
    apply fib_strictly_monotone; lia.
Qed.

Lemma fibonacci_sorted_witness :
  exists l : list Z,
    fibonacci 6 = Return l /\
    Forall (fun x => 0 <= x) l /\
    (forall i j x y, 0 <= i <= j -> getitem l i = Return x ->
                     getitem l j = Return y -> x <= y) /\
    (forall i j x y, 2 <= i < j -> getitem l i = Return x ->
                     getitem l j = Return y -> x < y).
Proof. apply (fibonacci_sorted 6). lia. Defined.

(** X6. For n >= 0 the sum of [fibonacci n] plus one is the last element of
    [fibonacci (n + 2)]. *)
Theorem fibonacci_sum (n : Z) :
  0 <= n ->
  exists l l' : list Z,
    fibonacci n = Return l /\
    fibonacci (n + 2) = Return l' /\
    getitem l' (-1) = Return (foldr Z.add 0 l + 1).
Proof.
  intros Hn. exists (first_fib (Z.to_nat n)), (first_fib (Z.to_nat (n + 2))).
  split; [apply fibonacci_first_fib; lia|].
  split; [apply fibonacci_first_fib; lia|].
  rewrite sum_first_fib.
  apply getitem_negative; rewrite ?first_fib_length; try lia.
  rewrite first_fib_lookup by lia. do 2 f_equal. lia.
Qed.

Lemma fibonacci_sum_witness :
  exists l l' : list Z,
    fibonacci 5 = Return l /\
    fibonacci (5 + 2) = Return l' /\
    getitem l' (-1) = Return (foldr Z.add 0 l + 1).
Proof. apply (fibonacci_sum 5). lia. Defined.

(** X7. For n >= 0 every element of [fibonacci n] is below 2^n: the numbers
    need at most n bits. *)
Theorem fibonacci_below_power_of_two (n : Z) :
  0 <= n ->
  exists l : list Z,
    fibonacci n = Return l /\ Forall (fun x => 0 <= x < 2 ^ n) l.
Proof.
  intros Hn. exists (first_fib (Z.to_nat n)).
  split; [apply fibonacci_first_fib; lia|].
  unfold first_fib. apply Forall_fmap, Forall_forall. intros k Hk.
  apply elem_of_seq in Hk. simpl.
  split; [apply fib_nonneg|].
  destruct (fib_below_power_pair k) as [Hpow _].
  assert (2 ^ Z.of_nat k <= 2 ^ n) by (apply Z.pow_le_mono_r; lia).
  lia.
Qed.

Lemma fibonacci_below_power_of_two_witness :
  exists l : list Z,
    fibonacci 12 = Return l /\ Forall (fun x => 0 <= x < 2 ^ 12) l.
Proof. apply (fibonacci_below_power_of_two 12). lia. Defined.

(** The two largest numbers of [fibonacci 93], read off a run of the loop. *)
Lemma fib_91_92 :
  fib 91 = 4660046610375530309 /\ fib 92 = 7540113804746346429.
Proof.
  assert (Hrun : exists l : list Z,
             fibonacci 93 = Return l /\
             l !! 91%nat = Some 4660046610375530309 /\
             l !! 92%nat = Some 7540113804746346429).
  { eexists. split; [vm_compute; reflexivity|]. split; reflexivity. }
  destruct Hrun as (l & Hl & H91 & H92).
  rewrite (fibonacci_first_fib 93) in Hl by lia.
  injection Hl as <-.
  change (Z.to_nat 93) with 93%nat in H91, H92.
  rewrite first_fib_lookup in H91, H92 by lia.
  split; congruence.
Qed.

(** X8. For n >= 0, every element of [fibonacci n] is below 2^63 (fits a
    signed 64-bit integer) exactly when n <= 93. *)
Theorem fibonacci_below_2_63 (n : Z) :
  0 <= n ->
  exists l : list Z,
    fibonacci n = Return l /\
    (Forall (fun x => x < 2 ^ 63) l <-> n <= 93).
Proof.
  intros Hn. exists (first_fib (Z.to_nat n)).
  split; [apply fibonacci_first_fib; lia|].
  destruct fib_91_92 as [H91 H92].
  split.
  - intros Hall. destruct (Z.le_gt_cases n 93) as [Hle|Hgt]; [exact Hle|].
    exfalso.
    assert (Hin : first_fib (Z.to_nat n) !! 93%nat = Some (fib 93))
      by (apply first_fib_lookup; lia).
    pose proof (Forall_lookup_1 _ _ _ _ Hall Hin) as Hlt.
    rewrite (fib_step 91), H91, H92 in Hlt. revert Hlt.
    change (2 ^ 63) with 9223372036854775808. lia.
  - intros Hle. unfold first_fib. apply Forall_fmap, Forall_forall.
    intros k Hk. apply elem_of_seq in Hk. simpl.
    assert (Hmono : fib k <= fib 92) by (apply fib_monotone; lia).
    rewrite H92 in Hmono.
    change (2 ^ 63) with 9223372036854775808. lia.
Qed.

Lemma fibonacci_below_2_63_witness :
  exists l : list Z,
    fibonacci 93 = Return l /\
    (Forall (fun x => x < 2 ^ 63) l <-> 93 <= 93).
Proof. apply (fibonacci_below_2_63 93). lia. Defined.
